(** * Field-level permissions of [ralph.lib.permissions.models]

    A shallow embedding of [src/ralph/lib/permissions/models.py]:
    - [get_perm_key], the permission code name of a model field;
    - [PermissionByFieldBase.__new__], the metaclass loop that appends two
      permissions per eligible field to [_meta.permissions];
    - [PermByFieldMixin.has_access_to_field] and
      [PermByFieldMixin.allowed_fields], the query side.

    Python exceptions are values of the error side of [outcome]; the loops are
    recursive functions over the field list that thread the permission list. *)

From Stdlib Require Import Ascii.
From stdpp Require Import base decidable option list gmap strings.

(** ** Python results *)

(** An exception is identified by the name of its class. *)
Inductive exn : Type := PyExc (cls : string).

Global Instance exn_eq_dec : EqDecision exn.
Proof. solve_decision. Defined.

Inductive outcome (A : Type) : Type :=
  | Ok (a : A)
  | Raise (e : exn).
Global Arguments Ok {A} a.
Global Arguments Raise {A} e.

Global Instance outcome_eq_dec {A} `{EqDecision A} : EqDecision (outcome A).
Proof. solve_decision. Defined.

(** Sequencing: an exception skips the rest of the computation. *)
Global Instance outcome_bind : MBind outcome := fun A B k r =>
  match r with
  | Ok a => k a
  | Raise e => Raise e
  end.

Definition AttributeError : exn := PyExc "AttributeError".
Definition TypeError : exn := PyExc "TypeError".
Definition IndexError : exn := PyExc "IndexError".
Definition ValueError : exn := PyExc "ValueError".

(** ** [str.format] with automatic field numbering

    The three templates of the module use only the replacement field [{}],
    and only that one is modelled.  [format] consumes one argument per [{}],
    copies every other character, unescapes doubled braces and raises
    [IndexError] when the arguments run out; surplus arguments are ignored,
    as in Python.  A lone brace is a [ValueError]; so is, in this model, any
    replacement field that is not empty. *)
Fixpoint format (template : string) (args : list string) : outcome string :=
  match template with
  | EmptyString => Ok EmptyString
  | String "{" (String "}" rest) =>
      match args with
      | [] => Raise IndexError
      | a :: args' => s ← format rest args'; Ok (a +:+ s)
      end
  | String "{" (String "{" rest) =>
      s ← format rest args; Ok (String "{" s)
  | String "}" (String "}" rest) =>
      s ← format rest args; Ok (String "}" s)
  | String "{" _ => Raise ValueError
  | String "}" _ => Raise ValueError
  | String c rest => s ← format rest args; Ok (String c s)
  end%char.

(** ** [get_perm_key] *)

Definition get_perm_key (action class_name field_name : string)
  : outcome string :=
  format "{}_{}_{}_field" [action; class_name; field_name].

(** The code name that [get_perm_key] spells out. *)
Definition perm_code (action class_name field_name : string) : string :=
  action +:+ "_" +:+ class_name +:+ "_" +:+ field_name +:+ "_field".

(** ** Model metadata, as the module reads it

    A field contributes [name], [verbose_name] and [primary_key]. *)
Record Field : Type := {
  name : string;
  verbose_name : string;
  primary_key : bool
}.

Global Instance Field_eq_dec : EqDecision Field.
Proof. solve_decision. Defined.

(** The object bound to [Permissions.blacklist].  The module only ever tests
    [name not in blacklist]: a set of names answers by membership; an object
    that neither defines [__contains__] nor is iterable ([None], a number)
    makes the test raise [TypeError]. *)
Inductive blacklist_value : Type :=
  | NameSet (names : gset string)
  | NotAContainer.

(** The inner class [Permissions]; its [blacklist] attribute may be missing. *)
Record PermissionsCls : Type := {
  blacklist : option blacklist_value
}.

(** The part of [_meta] that the module reads or writes. *)
Record Options : Type := {
  model_name : string;
  app_label : string;
  fields : list Field;
  permissions : list (string * string)
}.

(** A model class: [_meta] and the attribute [Permissions], which a class may
    lack.  An instance reaches both through its class, so [self] below is the
    class of the instance. *)
Record ModelClass : Type := {
  _meta : Options;
  Permissions : option PermissionsCls
}.

(** [user.has_perm]: the identity store answers a qualified permission name,
    or raises. *)
Record User : Type := {
  has_perm : string -> outcome bool
}.

(** [cls.Permissions.blacklist]: either attribute lookup may fail. *)
Definition getattr_blacklist (cls : ModelClass) : outcome blacklist_value :=
  match Permissions cls with
  | None => Raise AttributeError
  | Some p =>
      match blacklist p with
      | None => Raise AttributeError
      | Some b => Ok b
      end
  end.

(** [x in container]. *)
Definition contains (container : blacklist_value) (x : string)
  : outcome bool :=
  match container with
  | NameSet names => Ok (bool_decide (x ∈ names))
  | NotAContainer => Raise TypeError
  end.

(** Modelled from the spec: [ugettext_lazy] belongs to Django and is not part
    of the module.  The specification gives the descriptions in the source
    language, which is what the lazy string formats to when no translation
    catalogue is active: the message id is its own translation. *)
Definition ugettext_lazy (msgid : string) : string := msgid.

(** [cls._meta.permissions.append(entry)]: the list object is mutated in
    place, everything else of the class is untouched. *)
Definition permissions_append (cls : ModelClass) (entry : string * string)
  : ModelClass :=
  {| _meta := {| model_name := model_name (_meta cls);
                 app_label := app_label (_meta cls);
                 fields := fields (_meta cls);
                 permissions := permissions (_meta cls) ++ [entry] |};
     Permissions := Permissions cls |}.

Module PermissionByFieldBase.

(** One iteration of the [for field in new_class._meta.fields] loop.  The
    condition [not field.primary_key and name not in blacklist] short-cuts:
    the membership test is not evaluated for a primary key. *)
Definition loop_body (class_name : string) (field : Field)
    (new_class : ModelClass) : outcome ModelClass :=
  blacklist ← getattr_blacklist new_class;
  let name := name field in
  cond ← (if negb (primary_key field)
          then found ← contains blacklist name; Ok (negb found)
          else Ok false);
  if (cond : bool) then
    change_key ← get_perm_key "change" class_name name;
    change_text ← format (ugettext_lazy "Can change {} field")
                         [verbose_name field];
    let new_class := permissions_append new_class (change_key, change_text) in
    view_key ← get_perm_key "view" class_name name;
    view_text ← format (ugettext_lazy "Can view {} field")
                       [verbose_name field];
    Ok (permissions_append new_class (view_key, view_text))
  else Ok new_class.

Fixpoint loop (class_name : string) (fields : list Field)
    (new_class : ModelClass) : outcome ModelClass :=
  match fields with
  | [] => Ok new_class
  | field :: rest =>
      new_class ← loop_body class_name field new_class;
      loop class_name rest new_class
  end.

(** [__new__], after [ModelBase.__new__] has built [new_class]. *)
Definition __new__ (new_class : ModelClass) : outcome ModelClass :=
  let class_name := model_name (_meta new_class) in
  loop class_name (fields (_meta new_class)) new_class.

End PermissionByFieldBase.

Module PermByFieldMixin.

Definition has_access_to_field (self : ModelClass) (field_name : string)
    (user : User) (action : string) : outcome bool :=
  perm_key ← get_perm_key action (model_name (_meta self)) field_name;
  qualified ← format "{}.{}" [app_label (_meta self); perm_key];
  has_perm user qualified.

(** The [for field in self._meta.fields] loop; [result] is the list built so
    far.  [and] short-cuts from left to right, so the store is asked only
    about fields that are neither primary key nor blacklisted. *)
Fixpoint allowed_fields_loop (self : ModelClass) (blacklist : blacklist_value)
    (user : User) (action : string) (fields : list Field)
    (result : list string) : outcome (list string) :=
  match fields with
  | [] => Ok result
  | field :: rest =>
      cond ← (if negb (primary_key field)
              then found ← contains blacklist (name field);
                   if negb found
                   then has_access_to_field self (name field) user action
                   else Ok false
              else Ok false);
      allowed_fields_loop self blacklist user action rest
        (if (cond : bool) then result ++ [name field] else result)
  end.

Definition allowed_fields (self : ModelClass) (user : User) (action : string)
    : outcome (list string) :=
  blacklist ← getattr_blacklist self;
  allowed_fields_loop self blacklist user action (fields (_meta self)) [].

(** The default [action='change'] of both methods. *)
Definition default_action : string := "change".

End PermByFieldMixin.

(** ** The identity store

    Modelled from the spec: the store behind [user.has_perm] is Django's and
    not part of the module.  The specification describes an actor that holds
    a set of grants, each a qualified permission name; such an actor answers
    [has_perm] by membership and does not raise. *)
Definition user_with_grants (grants : gset string) : User :=
  {| has_perm := fun qualified => Ok (bool_decide (qualified ∈ grants)) |}.

(** ** Registration as the specification words it

    [register_field_permissions] walks the fields in declaration order, skips
    a field that is the primary key or whose name is in the exclusion set and
    emits the change entry, then the view entry, of every other field. *)
Definition field_entries (type_name : string) (f : Field)
  : list (string * string) :=
  [ (perm_code "change" type_name (name f),
     "Can change " +:+ verbose_name f +:+ " field");
    (perm_code "view" type_name (name f),
     "Can view " +:+ verbose_name f +:+ " field") ].

Fixpoint register_field_permissions (type_name : string) (fs : list Field)
    (exclusion_set : gset string) : list (string * string) :=
  match fs with
  | [] => []
  | f :: rest =>
      if primary_key f || bool_decide (name f ∈ exclusion_set)
      then register_field_permissions type_name rest exclusion_set
      else field_entries type_name f
           ++ register_field_permissions type_name rest exclusion_set
  end.

(** The class [cls] with its permission list replaced by [ps]. *)
Definition with_permissions (cls : ModelClass) (ps : list (string * string))
  : ModelClass :=
  {| _meta := {| model_name := model_name (_meta cls);
                 app_label := app_label (_meta cls);
                 fields := fields (_meta cls);
                 permissions := ps |};
     Permissions := Permissions cls |}.

(** ** The scenario of the specification: type [document] in scope [app] *)
Definition id_field : Field :=
  {| name := "id"; verbose_name := "ID"; primary_key := true |}.
Definition title_field : Field :=
  {| name := "title"; verbose_name := "Title"; primary_key := false |}.
Definition remarks_field : Field :=
  {| name := "remarks"; verbose_name := "Remarks"; primary_key := false |}.

Definition document_meta : Options :=
  {| model_name := "document"; app_label := "app";
     fields := [id_field; title_field; remarks_field];
     permissions := [] |}.

Definition document (exclusion : gset string) : ModelClass :=
  {| _meta := document_meta;
     Permissions := Some {| blacklist := Some (NameSet exclusion) |} |}.

(** The same type declared without a [Permissions] class. *)
Definition document_without_permissions : ModelClass :=
  {| _meta := document_meta; Permissions := None |}.

(** The scenario type with one permission declared by hand in [Meta]. *)
Definition document_with_declared : ModelClass :=
  with_permissions (document {["remarks"]})
    [("publish_document", "Can publish document")].

(** The abstract mixin itself: created by the same metaclass, it declares no
    [Permissions] class and, being abstract, has no field. *)
Definition abstract_mixin : ModelClass :=
  {| _meta := {| model_name := "permbyfieldmixin"; app_label := "permissions";
                 fields := []; permissions := [] |};
     Permissions := None |}.

(** A type whose only field is its primary key and whose blacklist was
    set to an object that is no container. *)
Definition keyed_only : ModelClass :=
  {| _meta := {| model_name := "token"; app_label := "app";
                 fields := [id_field]; permissions := [] |};
     Permissions := Some {| blacklist := Some NotAContainer |} |}.


(** The actor of the scenario: one grant. *)
Definition editor : User :=
  user_with_grants {["app.change_document_title_field"]}.

(** An actor granted the change permission of both [title] and [remarks]. *)
Definition reviser : User :=
  user_with_grants {[ "app.change_document_title_field";
                      "app.change_document_remarks_field" ]}.

(** The exception the specification names for a missing configuration; the
    module never raises it. *)
Definition ConfigurationError : exn := PyExc "ConfigurationError".

(** [Permissions.blacklist] cannot be looked up: the class has no
    [Permissions], or [Permissions] has no [blacklist]. *)
Definition blacklist_absent (cls : ModelClass) : Prop :=
  match Permissions cls with
  | None => True
  | Some p => blacklist p = None
  end.

(** [Permissions.blacklist] is bound to a set of names. *)
Definition blacklist_is (cls : ModelClass) (names : gset string) : Prop :=
  Permissions cls = Some {| blacklist := Some (NameSet names) |}.

(** The identity store answers every question put to it. *)
Definition never_raises (user : User) : Prop :=
  forall qualified : string, exists b : bool, has_perm user qualified = Ok b.

(** The three conditions under which [allowed_fields] keeps a field. *)
Definition permitted (self : ModelClass) (exclusion_set : gset string)
    (user : User) (action : string) (f : Field) : Prop :=
  primary_key f = false
  /\ (name f ∉ exclusion_set)
  /\ PermByFieldMixin.has_access_to_field self (name f) user action = Ok true.

Global Instance permitted_dec self exclusion_set user action f :
  Decision (permitted self exclusion_set user action f).
Proof. unfold permitted. apply _. Defined.

(** Case of the letters: [is_upper] recognises [A]..[Z]; a string is all
    lowercase when it holds none of them. *)
Definition is_upper (c : ascii) : bool :=
  let n := nat_of_ascii c in (65 <=? n) && (n <=? 90).

Fixpoint all_lowercase (s : string) : bool :=
  match s with
  | EmptyString => true
  | String c rest => negb (is_upper c) && all_lowercase rest
  end.

(** A field for which the loops do not skip: no primary key, and its name is
    not in the blacklist. *)
Definition eligible (exclusion_set : gset string) (f : Field) : Prop :=
  primary_key f = false /\ (name f ∉ exclusion_set).

Global Instance eligible_dec exclusion_set f :
  Decision (eligible exclusion_set f).
Proof. unfold eligible. apply _. Defined.

(** The grants of an actor who holds every permission of the class's list,
    each qualified by the application label, the way [has_access_to_field]
    spells the name it asks for. *)
Definition grants_of (cls : ModelClass) : gset string :=
  list_to_set
    ((fun entry : string * string =>
        app_label (_meta cls) +:+ "." +:+ entry.1)
     <$> permissions (_meta cls)).

(** One step of a computation in [outcome]: the bind and the negation of a
    known boolean, nothing else. *)
Ltac step := cbn [negb mbind outcome_bind fmap list_fmap].

(** * Properties *)

(** ** Strings *)

Lemma app_String c s t : String c s +:+ t = String c (s +:+ t).
Proof. reflexivity. Qed.

Lemma app_length s t :
  String.length (s +:+ t) = String.length s + String.length t.
Proof.
  induction s as [|c s IH]; [done|]. rewrite app_String. cbn. by rewrite IH.
Qed.

Lemma app_empty_r s : s +:+ "" = s.
Proof. induction s as [|c s IH]; [done|]. by rewrite app_String, IH. Qed.

(** Cancellation of a common suffix. *)
Lemma app_inj_r s x y : x +:+ s = y +:+ s -> x = y.
Proof.
  revert y. induction x as [|c x IH]; intros [|d y] H.
  - done.
  - apply (f_equal String.length) in H. rewrite !app_length in H. cbn in H. lia.
  - apply (f_equal String.length) in H. rewrite !app_length in H. cbn in H. lia.
  - rewrite !app_String in H. injection H as -> H. f_equal. by apply IH.
Qed.

Lemma all_lowercase_app s t :
  all_lowercase (s +:+ t) = all_lowercase s && all_lowercase t.
Proof.
  induction s as [|c s IH]; [done|].
  rewrite app_String. cbn. rewrite IH. by rewrite andb_assoc.
Qed.

(** ** [str.format] *)

Example format_docstring :
  get_perm_key "change" "baseobject" "remarks"
  = Ok "change_baseobject_remarks_field".
Proof. reflexivity. Qed.

Example format_too_few_arguments :
  format "{}.{}" ["app"] = Raise IndexError.
Proof. reflexivity. Qed.

Example format_escaped_braces :
  format "{{{}}}" ["x"] = Ok "{x}".
Proof. reflexivity. Qed.

(** ** [get_perm_key] *)

Lemma get_perm_key_eq action class_name field_name :
  get_perm_key action class_name field_name
  = Ok (perm_code action class_name field_name).
Proof. reflexivity. Qed.

(** For a fixed action and class, the code name determines the field. *)
Lemma perm_code_inj action class_name n1 n2 :
  perm_code action class_name n1 = perm_code action class_name n2 -> n1 = n2.
Proof.
  unfold perm_code. intros H.
  apply (inj (String.app action)) in H.
  change ("_" +:+ ?x) with (String "_"%char x) in H. injection H as H.
  apply (inj (String.app class_name)) in H.
  change ("_" +:+ ?x) with (String "_"%char x) in H. injection H as H.
  by apply app_inj_r in H.
Qed.

Lemma perm_code_change_view class_name n1 n2 :
  perm_code "change" class_name n1 <> perm_code "view" class_name n2.
Proof. unfold perm_code. discriminate. Qed.

(** ** Class descriptors *)

Lemma with_permissions_same cls :
  with_permissions cls (permissions (_meta cls)) = cls.
Proof. by destruct cls as [[] ?]. Qed.

Lemma with_permissions_twice cls ps qs :
  with_permissions (with_permissions cls ps) qs = with_permissions cls qs.
Proof. reflexivity. Qed.

Lemma permissions_append_with cls entry :
  permissions_append cls entry
  = with_permissions cls (permissions (_meta cls) ++ [entry]).
Proof. reflexivity. Qed.

Lemma with_permissions_inj cls ps qs :
  with_permissions cls ps = with_permissions cls qs -> ps = qs.
Proof. intros H. by injection H. Qed.

(** ** The registration loop *)

Lemma register_field_permissions_app type_name fs gs exclusion_set :
  register_field_permissions type_name (fs ++ gs) exclusion_set
  = register_field_permissions type_name fs exclusion_set
    ++ register_field_permissions type_name gs exclusion_set.
Proof.
  induction fs as [|f fs IH]; [done|]. cbn.
  destruct (primary_key f || bool_decide (name f ∈ exclusion_set)); [done|].
  by rewrite IH.
Qed.

(** Nothing is emitted exactly when every field is skipped. *)
Lemma register_field_permissions_nil type_name fs exclusion_set :
  register_field_permissions type_name fs exclusion_set = []
  <-> Forall (fun f => primary_key f = true \/ name f ∈ exclusion_set) fs.
Proof.
  induction fs as [|f fs IH]; cbn; [by split|].
  rewrite Forall_cons, <- IH.
  destruct (primary_key f); cbn.
  { split; [intros H; split; [by left|done] | by intros [_ H]]. }
  case_bool_decide as Hin; cbn.
  - split; [intros H; split; [by right|done] | by intros [_ H]].
  - split; [done | by intros [[?|?] _]].
Qed.

Section registration.
Variable class_name : string.
Variable exclusion_set : gset string.

(** With a set as blacklist an iteration never raises: it appends the
    entries of the field, or nothing. *)
Lemma loop_body_configured field cls :
  getattr_blacklist cls = Ok (NameSet exclusion_set) ->
  PermissionByFieldBase.loop_body class_name field cls
  = Ok (with_permissions cls
          (permissions (_meta cls)
           ++ register_field_permissions class_name [field] exclusion_set)).
Proof.
  intros Hbl. unfold PermissionByFieldBase.loop_body. rewrite Hbl. cbn.
  destruct (primary_key field); cbn.
  { by rewrite app_nil_r, with_permissions_same. }
  destruct (bool_decide (name field ∈ exclusion_set)); cbn.
  { by rewrite app_nil_r, with_permissions_same. }
  unfold permissions_append, with_permissions. cbn.
  by rewrite <- app_assoc.
Qed.

Lemma loop_configured fs cls :
  getattr_blacklist cls = Ok (NameSet exclusion_set) ->
  PermissionByFieldBase.loop class_name fs cls
  = Ok (with_permissions cls
          (permissions (_meta cls)
           ++ register_field_permissions class_name fs exclusion_set)).
Proof.
  revert cls. induction fs as [|f fs IH]; intros cls Hbl.
  { cbn. by rewrite app_nil_r, with_permissions_same. }
  change (f :: fs) with ([f] ++ fs).
  rewrite register_field_permissions_app. cbn [app].
  cbn [PermissionByFieldBase.loop].
  rewrite (loop_body_configured f cls Hbl). cbn [mbind outcome_bind].
  rewrite IH by exact Hbl.
  rewrite with_permissions_twice. cbn [permissions _meta with_permissions].
  by rewrite <- app_assoc.
Qed.
End registration.

(** Whatever the configuration, an iteration that returns has only appended
    to the permission list. *)
Lemma loop_body_frame class_name field cls cls' :
  PermissionByFieldBase.loop_body class_name field cls = Ok cls' ->
  exists added,
    cls' = with_permissions cls (permissions (_meta cls) ++ added).
Proof.
  destruct (getattr_blacklist cls) as [[names|]|e] eqn:Hbl.
  - rewrite (loop_body_configured class_name names field cls Hbl).
    intros [= <-]. eauto.
  - unfold PermissionByFieldBase.loop_body. rewrite Hbl. cbn.
    destruct (primary_key field); cbn; [|done].
    intros [= <-]. exists []. by rewrite app_nil_r, with_permissions_same.
  - unfold PermissionByFieldBase.loop_body. by rewrite Hbl.
Qed.

Lemma loop_frame class_name fs cls cls' :
  PermissionByFieldBase.loop class_name fs cls = Ok cls' ->
  exists added,
    cls' = with_permissions cls (permissions (_meta cls) ++ added).
Proof.
  revert cls. induction fs as [|f fs IH]; intros cls; cbn.
  { intros [= <-]. exists []. by rewrite app_nil_r, with_permissions_same. }
  destruct (PermissionByFieldBase.loop_body class_name f cls) as [c1|e] eqn:Hb;
    cbn; [|done].
  intros Hl. apply loop_body_frame in Hb as [a1 ->].
  apply IH in Hl as [a2 ->]. exists (a1 ++ a2).
  rewrite with_permissions_twice. cbn. by rewrite <- app_assoc.
Qed.

(** With no [Permissions.blacklist] the first iteration raises. *)
Lemma loop_unconfigured class_name f fs cls :
  getattr_blacklist cls = Raise AttributeError ->
  PermissionByFieldBase.loop class_name (f :: fs) cls = Raise AttributeError.
Proof.
  intros Hbl. cbn. unfold PermissionByFieldBase.loop_body. by rewrite Hbl.
Qed.

(** With a blacklist that is no container, primary keys pass and the first
    other field raises. *)
Lemma loop_not_a_container class_name fs cls :
  getattr_blacklist cls = Ok NotAContainer ->
  PermissionByFieldBase.loop class_name fs cls
  = if forallb primary_key fs then Ok cls else Raise TypeError.
Proof.
  intros Hbl. induction fs as [|f fs IH]; [done|]. cbn.
  unfold PermissionByFieldBase.loop_body. rewrite Hbl. cbn.
  destruct (primary_key f); cbn; [exact IH|done].
Qed.

Lemma blacklist_is_getattr cls names :
  blacklist_is cls names -> getattr_blacklist cls = Ok (NameSet names).
Proof. unfold blacklist_is, getattr_blacklist. by intros ->. Qed.

Lemma blacklist_absent_getattr cls :
  blacklist_absent cls -> getattr_blacklist cls = Raise AttributeError.
Proof.
  unfold blacklist_absent, getattr_blacklist.
  destruct (Permissions cls) as [p|]; [|done]. by intros ->.
Qed.

(** ** The claims about [get_perm_key] *)

(** C2, as amended: [get_perm_key] returns exactly
    [action_classname_fieldname_field], the three parts joined by single
    underscores and followed by the literal suffix, with no other
    transformation; no case folding takes place, so the result is all
    lowercase exactly when the three parts are. *)
Theorem get_perm_key_verbatim (action class_name field_name : string) :
  exists key : string,
    get_perm_key action class_name field_name = Ok key
    /\ key = action +:+ "_" +:+ class_name +:+ "_" +:+ field_name +:+ "_field"
    /\ all_lowercase key
       = all_lowercase action && all_lowercase class_name
         && all_lowercase field_name.
Proof.
  eexists. split_and!; [apply get_perm_key_eq|reflexivity|].
  unfold perm_code. rewrite !all_lowercase_app.
  change (all_lowercase "_") with true.
  change (all_lowercase "_field") with true.
  by destruct (all_lowercase action), (all_lowercase class_name),
       (all_lowercase field_name).
Qed.

(** C2, as stated, fails: a field name with a capital yields a key that is
    not all lowercase. *)
Lemma get_perm_key_keeps_capitals :
  get_perm_key "change" "document" "Title" = Ok "change_document_Title_field"
  /\ all_lowercase "change_document_Title_field" = false.
Proof. split; reflexivity. Qed.

(** ** The claims about registration *)

(** Scenarios 1 and 2 of the specification. *)
Example register_document :
  PermissionByFieldBase.__new__ (document ∅)
  = Ok (with_permissions (document ∅)
          [ ("change_document_title_field", "Can change Title field");
            ("view_document_title_field", "Can view Title field");
            ("change_document_remarks_field", "Can change Remarks field");
            ("view_document_remarks_field", "Can view Remarks field") ]).
Proof. reflexivity. Qed.

Example register_document_without_remarks :
  PermissionByFieldBase.__new__ (document {["remarks"]})
  = Ok (with_permissions (document {["remarks"]})
          [ ("change_document_title_field", "Can change Title field");
            ("view_document_title_field", "Can view Title field") ]).
Proof. reflexivity. Qed.

(** C1: with a set as [Permissions.blacklist], [__new__] returns the class
    with, appended to its permission list, the entries of its fields taken in
    declaration order, primary keys and blacklisted names skipped; each
    remaining field gives the pair of [get_perm_key 'change'] with
    [Can change <label> field], then the pair of [get_perm_key 'view'] with
    [Can view <label> field]. *)
Theorem new_registers_field_permissions
    (new_class : ModelClass) (exclusion_set : gset string) :
  blacklist_is new_class exclusion_set ->
  let type_name := model_name (_meta new_class) in
  PermissionByFieldBase.__new__ new_class
  = Ok (with_permissions new_class
          (permissions (_meta new_class)
           ++ register_field_permissions type_name
                (fields (_meta new_class)) exclusion_set))
  /\ forall f : Field, exists change_key view_key,
       get_perm_key "change" type_name (name f) = Ok change_key
       /\ get_perm_key "view" type_name (name f) = Ok view_key
       /\ field_entries type_name f
          = [ (change_key, "Can change " +:+ verbose_name f +:+ " field");
              (view_key, "Can view " +:+ verbose_name f +:+ " field") ].
Proof.
  intros Hbl type_name. split.
  - apply loop_configured, blacklist_is_getattr, Hbl.
  - intros f. eexists _, _. repeat split; apply get_perm_key_eq.
Qed.

Lemma new_registers_field_permissions_witness :
  PermissionByFieldBase.__new__ (document {["remarks"]})
  = Ok (with_permissions (document {["remarks"]})
          [ ("change_document_title_field", "Can change Title field");
            ("view_document_title_field", "Can view Title field") ]).
Proof.
  exact (proj1 (new_registers_field_permissions
                  (document {["remarks"]}) {["remarks"]} eq_refl)).
Defined.

(** C9: a registration that returns has only appended to the permission
    list: the entries present before keep their positions, the new ones
    follow them, and the field list, the [Permissions] class, the model name
    and the application label are those of the class it started from. *)
Theorem new_only_appends (new_class new_class' : ModelClass) :
  PermissionByFieldBase.__new__ new_class = Ok new_class' ->
  exists added : list (string * string),
    permissions (_meta new_class') = permissions (_meta new_class) ++ added
    /\ (forall (i : nat) (entry : string * string),
          permissions (_meta new_class) !! i = Some entry ->
          permissions (_meta new_class') !! i = Some entry)
    /\ fields (_meta new_class') = fields (_meta new_class)
    /\ Permissions new_class' = Permissions new_class
    /\ model_name (_meta new_class') = model_name (_meta new_class)
    /\ app_label (_meta new_class') = app_label (_meta new_class).
Proof.
  intros H. apply loop_frame in H as [added ->]. exists added. cbn.
  split_and!; try done.
  intros i entry Hi. by apply lookup_app_l_Some.
Qed.

Lemma new_only_appends_witness :
  let registered :=
    with_permissions document_with_declared
      [ ("publish_document", "Can publish document");
        ("change_document_title_field", "Can change Title field");
        ("view_document_title_field", "Can view Title field") ] in
  PermissionByFieldBase.__new__ document_with_declared = Ok registered
  /\ exists added : list (string * string),
       permissions (_meta registered)
       = [("publish_document", "Can publish document")] ++ added.
Proof.
  intros registered. split; [reflexivity|].
  destruct (new_only_appends document_with_declared registered eq_refl)
    as [added [H _]].
  exists added. exact H.
Defined.

(** C6, as amended: registration is not idempotent.  With a set as
    blacklist, a second run on the class the first run returned appends the
    same entries once more, so the list ends with two copies of them; the two
    runs agree with a single one only when no field is eligible. *)
Theorem new_twice_appends_twice
    (new_class : ModelClass) (exclusion_set : gset string) :
  blacklist_is new_class exclusion_set ->
  let before := permissions (_meta new_class) in
  let added := register_field_permissions (model_name (_meta new_class))
                 (fields (_meta new_class)) exclusion_set in
  let once := with_permissions new_class (before ++ added) in
  let twice := with_permissions new_class (before ++ added ++ added) in
  PermissionByFieldBase.__new__ new_class = Ok once
  /\ PermissionByFieldBase.__new__ once = Ok twice
  /\ (twice = once <->
      Forall (fun f => primary_key f = true \/ name f ∈ exclusion_set)
        (fields (_meta new_class))).
Proof.
  intros Hbl before added once twice.
  pose proof (blacklist_is_getattr _ _ Hbl) as Hget.
  split_and!.
  - by apply loop_configured.
  - unfold PermissionByFieldBase.__new__, once.
    cbn [_meta with_permissions model_name fields].
    rewrite (loop_configured _ exclusion_set) by exact Hget.
    rewrite with_permissions_twice. cbn [_meta with_permissions permissions].
    unfold twice. by rewrite <- app_assoc.
  - rewrite <- (register_field_permissions_nil (model_name (_meta new_class))).
    fold added. unfold twice, once. split.
    + intros H%with_permissions_inj.
      apply app_inv_head in H.
      rewrite <- (app_nil_r added) in H at 3. by apply app_inv_head in H.
    + intros ->. by rewrite !app_nil_r.
Qed.

Lemma new_twice_appends_twice_witness :
  PermissionByFieldBase.__new__
    (with_permissions (document {["remarks"]})
       [ ("change_document_title_field", "Can change Title field");
         ("view_document_title_field", "Can view Title field") ])
  = Ok (with_permissions (document {["remarks"]})
          [ ("change_document_title_field", "Can change Title field");
            ("view_document_title_field", "Can view Title field");
            ("change_document_title_field", "Can change Title field");
            ("view_document_title_field", "Can view Title field") ]).
Proof.
  exact (proj1 (proj2 (new_twice_appends_twice
                         (document {["remarks"]}) {["remarks"]} eq_refl))).
Defined.

(** C6, as stated, fails: on the scenario type the second run returns a list
    of four entries where the first returned two. *)
Lemma new_twice_duplicates :
  let once :=
    with_permissions (document {["remarks"]})
      [ ("change_document_title_field", "Can change Title field");
        ("view_document_title_field", "Can view Title field") ] in
  let twice :=
    with_permissions (document {["remarks"]})
      [ ("change_document_title_field", "Can change Title field");
        ("view_document_title_field", "Can view Title field");
        ("change_document_title_field", "Can change Title field");
        ("view_document_title_field", "Can view Title field") ] in
  PermissionByFieldBase.__new__ (document {["remarks"]}) = Ok once
  /\ PermissionByFieldBase.__new__ once = Ok twice
  /\ permissions (_meta twice) <> permissions (_meta once).
Proof. cbv zeta. split_and!; [reflexivity | reflexivity | discriminate]. Qed.

(** C7, as amended: the module has no [ConfigurationError].  When
    [Permissions.blacklist] cannot be looked up, registering a type that has
    a field raises [AttributeError], and a type without fields is registered
    unchanged; when the blacklist is no container, registration raises
    [TypeError] at the first field that is not a primary key, and a type
    whose fields are all primary keys is registered unchanged. *)
Theorem new_without_usable_blacklist (new_class : ModelClass) :
  (blacklist_absent new_class ->
     PermissionByFieldBase.__new__ new_class
     = match fields (_meta new_class) with
       | [] => Ok new_class
       | _ :: _ => Raise AttributeError
       end)
  /\ (getattr_blacklist new_class = Ok NotAContainer ->
        PermissionByFieldBase.__new__ new_class
        = if forallb primary_key (fields (_meta new_class))
          then Ok new_class else Raise TypeError).
Proof.
  split.
  - intros Habs%blacklist_absent_getattr.
    unfold PermissionByFieldBase.__new__.
    destruct (fields (_meta new_class)) as [|f fs]; [done|].
    by apply loop_unconfigured.
  - intros Hbad. by apply loop_not_a_container.
Qed.

Lemma new_without_usable_blacklist_witness :
  PermissionByFieldBase.__new__ document_without_permissions
  = Raise AttributeError
  /\ PermissionByFieldBase.__new__ keyed_only = Ok keyed_only.
Proof.
  split.
  - exact (proj1 (new_without_usable_blacklist document_without_permissions) I).
  - exact (proj2 (new_without_usable_blacklist keyed_only) eq_refl).
Defined.

(** C7, as stated, fails: without a [Permissions] class the scenario type
    raises [AttributeError], which is no [ConfigurationError], and the
    abstract mixin, which has no field, is registered without any error. *)
Lemma new_raises_no_configuration_error :
  blacklist_absent document_without_permissions
  /\ PermissionByFieldBase.__new__ document_without_permissions
     = Raise AttributeError
  /\ PermissionByFieldBase.__new__ document_without_permissions
     <> Raise ConfigurationError
  /\ blacklist_absent abstract_mixin
  /\ PermissionByFieldBase.__new__ abstract_mixin = Ok abstract_mixin.
Proof. split_and!; try done. Qed.

(** Every registered key comes from an eligible field. *)
Lemma elem_of_registered type_name fs exclusion_set (key : string) :
  key ∈ (register_field_permissions type_name fs exclusion_set).*1 ->
  exists g : Field,
    g ∈ fs /\ primary_key g = false /\ (name g ∉ exclusion_set)
    /\ (key = perm_code "change" type_name (name g)
        \/ key = perm_code "view" type_name (name g)).
Proof.
  induction fs as [|f fs IH]; cbn.
  { by intros ?%elem_of_nil. }
  destruct (primary_key f) eqn:Hpk; cbn.
  { intros (g & ? & ?)%IH. exists g. split; [by right|done]. }
  case_bool_decide as Hin; cbn.
  { intros (g & ? & ?)%IH. exists g. split; [by right|done]. }
  rewrite !elem_of_cons.
  intros [->|[->|(g & ? & ?)%IH]].
  - exists f. split_and!; auto. by left.
  - exists f. split_and!; auto. by left.
  - exists g. split; [by right|done].
Qed.

(** Fields with distinct names are told apart by their names. *)
Lemma field_of_name (fs : list Field) (f g : Field) :
  NoDup (name <$> fs) -> f ∈ fs -> g ∈ fs -> name f = name g -> f = g.
Proof.
  induction fs as [|h fs IH]; [by intros _ ?%elem_of_nil|].
  rewrite fmap_cons, NoDup_cons.
  intros [Hh Hnd] [->|Hf]%elem_of_cons [->|Hg]%elem_of_cons Hname; auto.
  - destruct Hh. rewrite Hname. by apply list_elem_of_fmap_2.
  - destruct Hh. rewrite <- Hname. by apply list_elem_of_fmap_2.
Qed.

(** C5: after registration with a set as blacklist, the change and view keys
    of a blacklisted field, and those of the primary key of a type whose
    field names are distinct, are keys of the permission list only if they
    were declared in it before; registration itself adds none of them,
    whatever the blacklist holds. *)
Theorem new_skips_excluded_and_primary_key
    (new_class : ModelClass) (exclusion_set : gset string)
    (f : Field) (action : string) :
  blacklist_is new_class exclusion_set ->
  f ∈ fields (_meta new_class) ->
  action ∈ ["change"; "view"] ->
  name f ∈ exclusion_set
  \/ (primary_key f = true /\ NoDup (name <$> fields (_meta new_class))) ->
  exists new_class' : ModelClass,
    PermissionByFieldBase.__new__ new_class = Ok new_class'
    /\ forall key : string,
         get_perm_key action (model_name (_meta new_class)) (name f) = Ok key ->
         key ∈ (permissions (_meta new_class')).*1 ->
         key ∈ (permissions (_meta new_class)).*1.
Proof.
  intros Hbl Hf Haction Hskip. eexists. split.
  { by apply loop_configured, blacklist_is_getattr. }
  intros key Hderived. rewrite get_perm_key_eq in Hderived.
  injection Hderived as <-.
  cbn. rewrite fmap_app, elem_of_app. intros [Hold|Hnew]; [done|exfalso].
  apply elem_of_registered in Hnew as (g & Hg & Hpk & Hout & Hkey).
  assert (name f = name g) as Hname.
  { rewrite !elem_of_cons, elem_of_nil in Haction.
    destruct Haction as [->|[->|[]]], Hkey as [Hkey|Hkey].
    - by apply perm_code_inj in Hkey.
    - by apply perm_code_change_view in Hkey.
    - symmetry in Hkey. by apply perm_code_change_view in Hkey.
    - by apply perm_code_inj in Hkey. }
  destruct Hskip as [Hin|[Hkeyed Hnd]].
  - apply Hout. by rewrite <- Hname.
  - rewrite (field_of_name _ f g Hnd Hf Hg Hname) in Hkeyed. congruence.
Qed.

Lemma new_skips_excluded_and_primary_key_witness :
  "change_document_remarks_field"
    ∉ [ "change_document_title_field"; "view_document_title_field" ].
Proof.
  destruct (new_skips_excluded_and_primary_key
              (document {["remarks"]}) {["remarks"]} remarks_field "change")
    as (registered & Hnew & Hkey).
  - reflexivity.
  - apply (bool_decide_unpack _). by vm_compute.
  - apply (bool_decide_unpack _). by vm_compute.
  - left. apply (bool_decide_unpack _). by vm_compute.
  - injection Hnew as <-. intros Hin.
    apply (Hkey "change_document_remarks_field" eq_refl) in Hin.
    by apply elem_of_nil in Hin.
Defined.

(** ** The claims about the access queries *)

(** Scenario 4 of the specification: an actor without grants. *)
Example no_grant_no_access :
  PermByFieldMixin.has_access_to_field (document {["remarks"]}) "remarks"
    (user_with_grants ∅) PermByFieldMixin.default_action
  = Ok false.
Proof. reflexivity. Qed.

(** An exception of the store leaves both queries as it is. *)
Example store_failure_propagates :
  let offline := {| has_perm := fun _ => Raise (PyExc "OperationalError") |} in
  PermByFieldMixin.has_access_to_field (document ∅) "title" offline "view"
  = Raise (PyExc "OperationalError")
  /\ PermByFieldMixin.allowed_fields (document ∅) offline "view"
     = Raise (PyExc "OperationalError").
Proof. split; reflexivity. Qed.

Lemma has_access_to_field_eq self field_name user action :
  PermByFieldMixin.has_access_to_field self field_name user action
  = has_perm user
      (app_label (_meta self) +:+ "."
       +:+ perm_code action (model_name (_meta self)) field_name).
Proof.
  unfold PermByFieldMixin.has_access_to_field. rewrite get_perm_key_eq. cbn.
  by rewrite app_empty_r.
Qed.

(** C4: [has_access_to_field] derives the key with [get_perm_key], puts the
    application label and a dot in front of it, and its result is the answer
    of [user.has_perm] on that one string, a raised exception included; no
    step of its own raises. *)
Theorem has_access_to_field_delegates
    (self : ModelClass) (field_name : string) (user : User) (action : string) :
  exists id : string,
    get_perm_key action (model_name (_meta self)) field_name = Ok id
    /\ PermByFieldMixin.has_access_to_field self field_name user action
       = has_perm user (app_label (_meta self) +:+ "." +:+ id).
Proof. eexists. split; [apply get_perm_key_eq|apply has_access_to_field_eq]. Qed.

Section allowed_fields.
Variable self : ModelClass.
Variable exclusion_set : gset string.
Variable user : User.
Variable action : string.

Local Abbreviation keeps := (permitted self exclusion_set user action).

(** The loop, when the store answers: the names of the permitted fields
    are appended to the list built so far. *)
Lemma allowed_fields_loop_filter fs acc :
  never_raises user ->
  PermByFieldMixin.allowed_fields_loop self (NameSet exclusion_set)
    user action fs acc
  = Ok (acc ++ (name <$> filter keeps fs)).
Proof.
  intros Hstore. revert acc. induction fs as [|f fs IH]; intros acc.
  { cbn. by rewrite app_nil_r. }
  cbn [PermByFieldMixin.allowed_fields_loop contains].
  rewrite filter_cons.
  destruct (decide (keeps f)) as [(Hpk & Hout & Hacc)|Hno].
  { rewrite Hpk, bool_decide_eq_false_2 by done. step. rewrite Hacc. step.
    by rewrite IH, <- app_assoc. }
  destruct (primary_key f) eqn:Hpk; step; [by rewrite IH|].
  case_bool_decide as Hin; step; [by rewrite IH|].
  destruct (Hstore (app_label (_meta self) +:+ "."
            +:+ perm_code action (model_name (_meta self)) (name f)))
    as [b Hb].
  rewrite <- has_access_to_field_eq in Hb. rewrite Hb. step.
  destruct b; [|by rewrite IH].
  by destruct Hno.
Qed.

(** The loop, whatever the store does: a name it returns was in the list
    already or is the name of a permitted field. *)
Lemma allowed_fields_loop_sound fs acc names n :
  PermByFieldMixin.allowed_fields_loop self (NameSet exclusion_set)
    user action fs acc = Ok names ->
  n ∈ names ->
  n ∈ acc \/ exists g : Field, g ∈ fs /\ keeps g /\ n = name g.
Proof.
  revert acc. induction fs as [|f fs IH]; intros acc;
    cbn [PermByFieldMixin.allowed_fields_loop contains].
  { intros [= <-]. by left. }
  destruct (primary_key f) eqn:Hpk; step.
  { intros H Hn. destruct (IH _ H Hn) as [?|(g & ? & ?)]; [by left|].
    right. exists g. split; [by right|done]. }
  case_bool_decide as Hin; step.
  { intros H Hn. destruct (IH _ H Hn) as [?|(g & ? & ?)]; [by left|].
    right. exists g. split; [by right|done]. }
  destruct (PermByFieldMixin.has_access_to_field self (name f) user action)
    as [[|]|e] eqn:Hacc; step; [| |done].
  - intros H Hn. destruct (IH _ H Hn) as [Hacc'|(g & ? & ?)].
    + apply elem_of_app in Hacc' as [?|Hlast]; [by left|].
      apply list_elem_of_singleton in Hlast as ->.
      right. exists f. split_and!; [by left| |done]. by split_and!.
    + right. exists g. split; [by right|done].
  - intros H Hn. destruct (IH _ H Hn) as [?|(g & ? & ?)]; [by left|].
    right. exists g. split; [by right|done].
Qed.
End allowed_fields.

Lemma allowed_fields_eq self exclusion_set user action :
  blacklist_is self exclusion_set ->
  never_raises user ->
  PermByFieldMixin.allowed_fields self user action
  = Ok (name <$> filter (permitted self exclusion_set user action)
                   (fields (_meta self))).
Proof.
  intros Hbl Hstore. unfold PermByFieldMixin.allowed_fields.
  rewrite (blacklist_is_getattr _ _ Hbl). step.
  by rewrite allowed_fields_loop_filter.
Qed.

(** C3: with a set as blacklist and a store that answers, [allowed_fields]
    returns the names of the fields that are no primary key, are not
    blacklisted and to which [has_access_to_field] grants access, in
    declaration order; the names are distinct when those of the fields are. *)
Theorem allowed_fields_filters
    (self : ModelClass) (exclusion_set : gset string)
    (user : User) (action : string) :
  blacklist_is self exclusion_set ->
  never_raises user ->
  let kept := filter (permitted self exclusion_set user action)
                (fields (_meta self)) in
  PermByFieldMixin.allowed_fields self user action = Ok (name <$> kept)
  /\ kept `sublist_of` fields (_meta self)
  /\ (NoDup (name <$> fields (_meta self)) -> NoDup (name <$> kept)).
Proof.
  intros Hbl Hstore kept. split_and!.
  - by apply allowed_fields_eq.
  - apply sublist_filter.
  - intros Hnd. eapply sublist_NoDup; [exact Hnd|].
    apply fmap_sublist, sublist_filter.
Qed.

Lemma allowed_fields_filters_witness :
  PermByFieldMixin.allowed_fields (document {["remarks"]}) editor "view" = Ok []
  /\ PermByFieldMixin.allowed_fields (document {["remarks"]}) editor "change"
     = Ok ["title"].
Proof.
  split.
  - refine (proj1 (allowed_fields_filters (document {["remarks"]})
                     {["remarks"]} editor "view" eq_refl _)).
    intros qualified. eexists. reflexivity.
  - refine (proj1 (allowed_fields_filters (document {["remarks"]})
                     {["remarks"]} editor "change" eq_refl _)).
    intros qualified. eexists. reflexivity.
Defined.

(** A store built from a set of grants answers every question. *)
Lemma user_with_grants_never_raises grants :
  never_raises (user_with_grants grants).
Proof. intros qualified. by eexists. Qed.

(** A predicate that singles out one element of a duplicate-free list. *)
Lemma filter_only {A} (P : A -> Prop) `{!forall x, Decision (P x)}
    (l : list A) (t : A) :
  NoDup l -> t ∈ l -> (forall g, g ∈ l -> P g <-> g = t) -> filter P l = [t].
Proof.
  induction l as [|h l IH]; [by intros _ ?%elem_of_nil|].
  rewrite NoDup_cons. intros [Hh Hnd] Ht HP.
  destruct (decide (P h)) as [HPh|HPh].
  - assert (h = t) as -> by (apply HP; [by left|done]).
    rewrite filter_cons_True by done.
    f_equal. destruct (filter P l) as [|g rest] eqn:Hfilter; [done|].
    assert (g ∈ filter P l) as [HPg Hg]%list_elem_of_filter
      by (rewrite Hfilter; by left).
    apply HP in HPg; [|by right]. by subst.
  - rewrite filter_cons_False by done.
    apply elem_of_cons in Ht as [->|Ht].
    + destruct HPh. apply HP; [by left|done].
    + apply IH; [done..|]. intros g Hg. apply HP. by right.
Qed.

(** C8: in scope [app], for a type named [document], the actor whose only
    grant is [app.change_document_title_field] may change the field [title]
    and may not view it; when [title] is a field that is neither primary key
    nor blacklisted, and field names are distinct, [allowed_fields] for
    [change] is the list of [title] alone. *)
Theorem scenario_editor (doc : ModelClass) :
  model_name (_meta doc) = "document" ->
  app_label (_meta doc) = "app" ->
  PermByFieldMixin.has_access_to_field doc "title" editor "change" = Ok true
  /\ PermByFieldMixin.has_access_to_field doc "title" editor "view" = Ok false
  /\ forall (exclusion_set : gset string) (title : Field),
       blacklist_is doc exclusion_set ->
       NoDup (name <$> fields (_meta doc)) ->
       title ∈ fields (_meta doc) ->
       name title = "title" ->
       primary_key title = false ->
       "title" ∉ exclusion_set ->
       PermByFieldMixin.allowed_fields doc editor "change" = Ok ["title"].
Proof.
  intros Hname Hlabel. split_and!.
  - rewrite has_access_to_field_eq, Hname, Hlabel. reflexivity.
  - rewrite has_access_to_field_eq, Hname, Hlabel. reflexivity.
  - intros exclusion_set title Hbl Hnd Hin Htitle Hpk Hout.
    rewrite (allowed_fields_eq doc exclusion_set editor "change" Hbl
               (user_with_grants_never_raises _)).
    rewrite (filter_only _ _ title); [by rewrite <- Htitle| |done|].
    { by apply NoDup_fmap_1 in Hnd. }
    intros g Hg. unfold permitted.
    rewrite has_access_to_field_eq, Hname, Hlabel.
    cbn [editor user_with_grants has_perm].
    split.
    + intros (_ & _ & [= Hgrant%bool_decide_eq_true]).
      apply elem_of_singleton in Hgrant.
      apply (inj (String.app "app.")) in Hgrant.
      change "change_document_title_field"
        with (perm_code "change" "document" "title") in Hgrant.
      apply perm_code_inj in Hgrant.
      apply (field_of_name _ _ _ Hnd Hg Hin). congruence.
    + intros ->. rewrite Htitle. by split_and!.
Qed.

Lemma scenario_editor_witness :
  PermByFieldMixin.has_access_to_field (document ∅) "title" editor "change"
  = Ok true
  /\ PermByFieldMixin.has_access_to_field (document ∅) "title" editor "view"
     = Ok false
  /\ PermByFieldMixin.allowed_fields (document ∅) editor "change"
     = Ok ["title"].
Proof.
  destruct (scenario_editor (document ∅) eq_refl eq_refl) as (Hc & Hv & Ha).
  split_and!; [exact Hc|exact Hv|].
  apply (Ha ∅ title_field).
  - reflexivity.
  - apply (bool_decide_unpack _). by vm_compute.
  - apply (bool_decide_unpack _). by vm_compute.
  - reflexivity.
  - reflexivity.
  - apply (bool_decide_unpack _). by vm_compute.
Defined.

(** C10: [has_access_to_field] reads the class only through its model name
    and its application label: two classes that agree on both get the same
    answer for every field name, user and action, whatever their fields and
    blacklists.  So for a field that is blacklisted, or is the primary key of
    a type with distinct field names, it returns true whenever the store
    answers true for the derived name, while no list returned by
    [allowed_fields] holds the name of that field. *)
Theorem has_access_to_field_ignores_fields :
  (forall (self1 self2 : ModelClass) (field_name : string)
          (user : User) (action : string),
      model_name (_meta self1) = model_name (_meta self2) ->
      app_label (_meta self1) = app_label (_meta self2) ->
      PermByFieldMixin.has_access_to_field self1 field_name user action
      = PermByFieldMixin.has_access_to_field self2 field_name user action)
  /\ (forall (self : ModelClass) (exclusion_set : gset string) (f : Field)
             (user : User) (action id : string),
        blacklist_is self exclusion_set ->
        f ∈ fields (_meta self) ->
        name f ∈ exclusion_set
        \/ (primary_key f = true /\ NoDup (name <$> fields (_meta self))) ->
        get_perm_key action (model_name (_meta self)) (name f) = Ok id ->
        has_perm user (app_label (_meta self) +:+ "." +:+ id) = Ok true ->
        PermByFieldMixin.has_access_to_field self (name f) user action
        = Ok true
        /\ forall names : list string,
             PermByFieldMixin.allowed_fields self user action = Ok names ->
             name f ∉ names).
Proof.
  split.
  - intros self1 self2 field_name user action Hname Hlabel.
    by rewrite !has_access_to_field_eq, Hname, Hlabel.
  - intros self exclusion_set f user action id Hbl Hf Hskip Hid Hstore.
    rewrite get_perm_key_eq in Hid. injection Hid as <-. split.
    { by rewrite has_access_to_field_eq. }
    intros names Hallowed Hin.
    unfold PermByFieldMixin.allowed_fields in Hallowed.
    rewrite (blacklist_is_getattr _ _ Hbl) in Hallowed.
    cbn [mbind outcome_bind] in Hallowed.
    destruct (allowed_fields_loop_sound _ _ _ _ _ _ _ _ Hallowed Hin)
      as [[]%elem_of_nil|(g & Hg & (Hpk & Hout & _) & Hname)].
    destruct Hskip as [Hex|[Hkeyed Hnd]].
    + apply Hout. by rewrite <- Hname.
    + rewrite (field_of_name _ f g Hnd Hf Hg Hname) in Hkeyed. congruence.
Qed.

Lemma has_access_to_field_ignores_fields_witness :
  PermByFieldMixin.has_access_to_field (document ∅) "owner" reviser "change"
  = PermByFieldMixin.has_access_to_field
      document_without_permissions "owner" reviser "change"
  /\ PermByFieldMixin.has_access_to_field
       (document {["remarks"]}) "remarks" reviser "change" = Ok true
  /\ "remarks" ∉ ["title"].
Proof.
  split.
  { apply (proj1 has_access_to_field_ignores_fields); reflexivity. }
  destruct (proj2 has_access_to_field_ignores_fields
              (document {["remarks"]}) {["remarks"]} remarks_field
              reviser "change" "change_document_remarks_field")
    as [Haccess Hnot].
  - reflexivity.
  - apply (bool_decide_unpack _). by vm_compute.
  - left. apply (bool_decide_unpack _). by vm_compute.
  - reflexivity.
  - reflexivity.
  - split; [exact Haccess|]. apply Hnot. reflexivity.
Defined.

(** * Further properties of the module *)

(** ** Keys *)

Lemma app_assoc_s s t u : (s +:+ t) +:+ u = s +:+ (t +:+ u).
Proof.
  induction s as [|c s IH]; [done|]. by rewrite !app_String, IH.
Qed.

(** X1: for one action and one class, two different field names never get
    the same key, and within one class a change key is never a view key,
    whatever the two field names. *)
Theorem get_perm_key_separates_fields
    (action class_name n1 n2 : string) :
  n1 <> n2 ->
  get_perm_key action class_name n1 <> get_perm_key action class_name n2
  /\ forall m1 m2 : string,
       get_perm_key "change" class_name m1 <> get_perm_key "view" class_name m2.
Proof.
  intros Hne. rewrite !get_perm_key_eq. split.
  - intros H. apply Hne, (perm_code_inj action class_name). congruence.
  - intros m1 m2 H. rewrite !get_perm_key_eq in H.
    apply (perm_code_change_view class_name m1 m2). congruence.
Qed.

Lemma get_perm_key_separates_fields_witness :
  get_perm_key "view" "document" "title"
  <> get_perm_key "view" "document" "remarks".
Proof.
  refine (proj1 (get_perm_key_separates_fields
                   "view" "document" "title" "remarks" _)).
  discriminate.
Defined.

(** X2: the key does not record where the class name ends and the field name
    begins: a segment set off by an underscore may move from the end of the
    class name to the front of the field name without changing the key,
    although the two class names differ. *)
Theorem get_perm_key_underscore_shift
    (action class_name segment field_name : string) :
  get_perm_key action (class_name +:+ "_" +:+ segment) field_name
  = get_perm_key action class_name (segment +:+ "_" +:+ field_name)
  /\ class_name +:+ "_" +:+ segment <> class_name.
Proof.
  split.
  - rewrite !get_perm_key_eq. f_equal. unfold perm_code.
    by rewrite !app_assoc_s.
  - intros H. apply (f_equal String.length) in H.
    rewrite !app_length in H. cbn in H. lia.
Qed.

(** ** Registration *)

Lemma register_field_permissions_length type_name fs exclusion_set :
  length (register_field_permissions type_name fs exclusion_set)
  = 2 * length (filter (eligible exclusion_set) fs).
Proof.
  induction fs as [|f fs IH]; [done|]. cbn [register_field_permissions].
  rewrite filter_cons.
  destruct (decide (eligible exclusion_set f)) as [[Hpk Hout]|Hno].
  - rewrite Hpk, bool_decide_eq_false_2 by done. cbn. rewrite IH. lia.
  - destruct (primary_key f) eqn:Hpk; cbn [orb]; [done|].
    case_bool_decide as Hin; [done|]. by destruct Hno.
Qed.

(** X3: with a set as blacklist, registration lengthens the permission list
    by exactly two entries per field that is neither primary key nor
    blacklisted. *)
Theorem new_appends_two_per_eligible_field
    (new_class : ModelClass) (exclusion_set : gset string) :
  blacklist_is new_class exclusion_set ->
  exists new_class' : ModelClass,
    PermissionByFieldBase.__new__ new_class = Ok new_class'
    /\ length (permissions (_meta new_class'))
       = length (permissions (_meta new_class))
         + 2 * length (filter (eligible exclusion_set)
                         (fields (_meta new_class))).
Proof.
  intros Hbl. eexists. split.
  { by apply loop_configured, blacklist_is_getattr. }
  cbn [with_permissions _meta permissions].
  by rewrite length_app, register_field_permissions_length.
Qed.

Lemma new_appends_two_per_eligible_field_witness :
  exists new_class' : ModelClass,
    PermissionByFieldBase.__new__ document_with_declared = Ok new_class'
    /\ length (permissions (_meta new_class')) = 1 + 2 * 1.
Proof.
  exact (new_appends_two_per_eligible_field
           document_with_declared {["remarks"]} eq_refl).
Defined.

Lemma register_field_permissions_keys_NoDup type_name fs exclusion_set :
  NoDup (name <$> fs) ->
  NoDup (register_field_permissions type_name fs exclusion_set).*1.
Proof.
  induction fs as [|f fs IH]; cbn [register_field_permissions].
  { intros _. apply NoDup_nil_2. }
  rewrite fmap_cons, NoDup_cons. intros [Hf Hnd].
  destruct (primary_key f || bool_decide (name f ∈ exclusion_set)); [auto|].
  assert (forall action key, action ∈ ["change"; "view"] ->
            key = perm_code action type_name (name f) ->
            key ∉ (register_field_permissions type_name fs exclusion_set).*1)
    as Hfresh.
  { intros action key Haction -> Hin. apply Hf.
    apply elem_of_registered in Hin as (g & Hg & _ & _ & Hkey).
    assert (name f = name g) as ->; [|by apply list_elem_of_fmap_2].
    rewrite !elem_of_cons, elem_of_nil in Haction.
    destruct Haction as [->|[->|[]]], Hkey as [Hkey|Hkey].
    - by apply perm_code_inj in Hkey.
    - by apply perm_code_change_view in Hkey.
    - symmetry in Hkey. by apply perm_code_change_view in Hkey.
    - by apply perm_code_inj in Hkey. }
  cbn. apply NoDup_cons. split.
  { rewrite elem_of_cons. intros [Heq|Hin].
    - by apply perm_code_change_view in Heq.
    - apply (Hfresh "change" _ ltac:(by left) eq_refl Hin). }
  apply NoDup_cons. split; [|auto].
  apply (Hfresh "view" _ ltac:(by right; left) eq_refl).
Qed.

(** X4: with a set as blacklist and distinct field names, the keys that
    registration appends are pairwise distinct. *)
Theorem new_appends_distinct_keys
    (new_class : ModelClass) (exclusion_set : gset string) :
  blacklist_is new_class exclusion_set ->
  NoDup (name <$> fields (_meta new_class)) ->
  exists (new_class' : ModelClass) (added : list (string * string)),
    PermissionByFieldBase.__new__ new_class = Ok new_class'
    /\ permissions (_meta new_class')
       = permissions (_meta new_class) ++ added
    /\ NoDup added.*1.
Proof.
  intros Hbl Hnd. eexists _, _. split_and!.
  - by apply loop_configured, blacklist_is_getattr.
  - reflexivity.
  - by apply register_field_permissions_keys_NoDup.
Qed.

Lemma new_appends_distinct_keys_witness :
  exists (new_class' : ModelClass) (added : list (string * string)),
    PermissionByFieldBase.__new__ (document ∅) = Ok new_class'
    /\ permissions (_meta new_class') = [] ++ added
    /\ NoDup added.*1.
Proof.
  apply (new_appends_distinct_keys (document ∅) ∅ eq_refl).
  apply (bool_decide_unpack _). by vm_compute.
Defined.

Lemma register_field_permissions_complete type_name fs exclusion_set f entry :
  f ∈ fs -> eligible exclusion_set f ->
  entry ∈ field_entries type_name f ->
  entry ∈ register_field_permissions type_name fs exclusion_set.
Proof.
  intros Hf [Hpk Hout] Hentry.
  induction fs as [|g fs IH]; [by apply elem_of_nil in Hf|].
  cbn [register_field_permissions].
  apply elem_of_cons in Hf as [<-|Hf].
  - rewrite Hpk, bool_decide_eq_false_2 by done. cbn [orb].
    apply elem_of_app. by left.
  - destruct (primary_key g || bool_decide (name g ∈ exclusion_set)); [auto|].
    apply elem_of_app. right. auto.
Qed.

(** X5: with a set as blacklist, every field that is neither primary key nor
    blacklisted has, after registration, its change entry and its view entry
    in the permission list, under the keys of [get_perm_key]. *)
Theorem new_registers_every_eligible_field
    (new_class : ModelClass) (exclusion_set : gset string) (f : Field) :
  blacklist_is new_class exclusion_set ->
  f ∈ fields (_meta new_class) ->
  primary_key f = false ->
  name f ∉ exclusion_set ->
  exists (new_class' : ModelClass) (change_key view_key : string),
    PermissionByFieldBase.__new__ new_class = Ok new_class'
    /\ get_perm_key "change" (model_name (_meta new_class)) (name f)
       = Ok change_key
    /\ get_perm_key "view" (model_name (_meta new_class)) (name f)
       = Ok view_key
    /\ (change_key, "Can change " +:+ verbose_name f +:+ " field")
         ∈ permissions (_meta new_class')
    /\ (view_key, "Can view " +:+ verbose_name f +:+ " field")
         ∈ permissions (_meta new_class').
Proof.
  intros Hbl Hf Hpk Hout. eexists _, _, _. split_and!.
  - by apply loop_configured, blacklist_is_getattr.
  - apply get_perm_key_eq.
  - apply get_perm_key_eq.
  - cbn [with_permissions _meta permissions]. apply elem_of_app. right.
    apply (register_field_permissions_complete _ _ _ f); [done..|].
    by left.
  - cbn [with_permissions _meta permissions]. apply elem_of_app. right.
    apply (register_field_permissions_complete _ _ _ f); [done..|].
    right. by left.
Qed.

Lemma new_registers_every_eligible_field_witness :
  exists (new_class' : ModelClass) (change_key view_key : string),
    PermissionByFieldBase.__new__ (document {["remarks"]}) = Ok new_class'
    /\ get_perm_key "change" "document" "title" = Ok change_key
    /\ get_perm_key "view" "document" "title" = Ok view_key
    /\ (change_key, "Can change Title field")
         ∈ permissions (_meta new_class')
    /\ (view_key, "Can view Title field")
         ∈ permissions (_meta new_class').
Proof.
  apply (new_registers_every_eligible_field
           (document {["remarks"]}) {["remarks"]} title_field).
  - reflexivity.
  - apply (bool_decide_unpack _). by vm_compute.
  - reflexivity.
  - apply (bool_decide_unpack _). by vm_compute.
Defined.




Lemma register_field_permissions_antitone type_name fs
    (smaller larger : gset string) :
  smaller ⊆ larger ->
  register_field_permissions type_name fs larger
    `sublist_of` register_field_permissions type_name fs smaller.
Proof.
  intros Hsub. induction fs as [|f fs IH]; [done|].
  cbn [register_field_permissions].
  destruct (primary_key f); cbn [orb]; [done|].
  destruct (decide (name f ∈ smaller)) as [Hsmall|Hsmall].
  { rewrite !bool_decide_eq_true_2 by auto. exact IH. }
  rewrite (bool_decide_eq_false_2 (name f ∈ smaller)) by done.
  case_bool_decide as Hlarge.
  - by apply sublist_inserts_l.
  - by apply sublist_app.
Qed.

(** X7: blacklisting more removes entries and changes nothing else: of two
    classes with the same [_meta], the one with the larger blacklist gets a
    permission list that is a sublist of the other's. *)
Theorem new_shrinks_with_blacklist
    (class1 class2 : ModelClass) (smaller larger : gset string) :
  _meta class1 = _meta class2 ->
  blacklist_is class1 smaller ->
  blacklist_is class2 larger ->
  smaller ⊆ larger ->
  exists new1 new2 : ModelClass,
    PermissionByFieldBase.__new__ class1 = Ok new1
    /\ PermissionByFieldBase.__new__ class2 = Ok new2
    /\ permissions (_meta new2) `sublist_of` permissions (_meta new1).
Proof.
  intros Hmeta Hbl1 Hbl2 Hsub. eexists _, _. split_and!.
  - by apply loop_configured, blacklist_is_getattr.
  - by apply loop_configured, blacklist_is_getattr.
  - cbn [with_permissions _meta permissions]. rewrite Hmeta.
    apply sublist_app; [done|].
    by apply register_field_permissions_antitone.
Qed.

Lemma new_shrinks_with_blacklist_witness :
  exists new1 new2 : ModelClass,
    PermissionByFieldBase.__new__ (document ∅) = Ok new1
    /\ PermissionByFieldBase.__new__ (document {["remarks"]}) = Ok new2
    /\ permissions (_meta new2) `sublist_of` permissions (_meta new1).
Proof.
  apply (new_shrinks_with_blacklist
           (document ∅) (document {["remarks"]}) ∅ {["remarks"]});
    try reflexivity.
  apply (bool_decide_unpack _). by vm_compute.
Defined.

(** ** Access queries *)

Lemma allowed_fields_loop_not_a_container self user action fs acc :
  PermByFieldMixin.allowed_fields_loop self NotAContainer user action fs acc
  = if forallb primary_key fs then Ok acc else Raise TypeError.
Proof.
  revert acc. induction fs as [|f fs IH]; intros acc; [done|].
  cbn [PermByFieldMixin.allowed_fields_loop contains forallb].
  destruct (primary_key f); step; [apply IH|done].
Qed.

(** X8: [allowed_fields] reads [Permissions.blacklist] before it looks at any
    field: without the attribute it raises [AttributeError] whatever the
    fields, for a class without fields too; with a blacklist that is no
    container it returns the empty list when every field is a primary key
    and raises [TypeError] otherwise.  The store plays no part in either. *)
Theorem allowed_fields_without_usable_blacklist
    (self : ModelClass) (user : User) (action : string) :
  (blacklist_absent self ->
     PermByFieldMixin.allowed_fields self user action = Raise AttributeError)
  /\ (getattr_blacklist self = Ok NotAContainer ->
        PermByFieldMixin.allowed_fields self user action
        = if forallb primary_key (fields (_meta self))
          then Ok [] else Raise TypeError).
Proof.
  unfold PermByFieldMixin.allowed_fields. split.
  - intros Habs%blacklist_absent_getattr. by rewrite Habs.
  - intros ->. step. apply allowed_fields_loop_not_a_container.
Qed.

Lemma allowed_fields_without_usable_blacklist_witness :
  PermissionByFieldBase.__new__ abstract_mixin = Ok abstract_mixin
  /\ PermByFieldMixin.allowed_fields abstract_mixin editor "change"
     = Raise AttributeError
  /\ PermByFieldMixin.allowed_fields keyed_only editor "change" = Ok [].
Proof.
  split_and!.
  - reflexivity.
  - exact (proj1 (allowed_fields_without_usable_blacklist
                    abstract_mixin editor "change") I).
  - exact (proj2 (allowed_fields_without_usable_blacklist
                    keyed_only editor "change") eq_refl).
Defined.

Section allowed_fields_any_store.
Variable self : ModelClass.
Variable exclusion_set : gset string.
Variable action : string.

(** What the loop returns, when it returns. *)
Lemma allowed_fields_loop_returns user fs acc names :
  PermByFieldMixin.allowed_fields_loop self (NameSet exclusion_set)
    user action fs acc = Ok names ->
  names
  = acc ++ (name <$> filter (permitted self exclusion_set user action) fs).
Proof.
  revert acc. induction fs as [|f fs IH]; intros acc;
    cbn [PermByFieldMixin.allowed_fields_loop contains].
  { intros [= <-]. cbn. by rewrite app_nil_r. }
  rewrite filter_cons.
  destruct (primary_key f) eqn:Hpk; step.
  { intros ->%IH. rewrite decide_False; [done|]. intros [? _]. congruence. }
  case_bool_decide as Hin; step.
  { intros ->%IH. rewrite decide_False; [done|]. by intros (_ & ? & _). }
  destruct (PermByFieldMixin.has_access_to_field self (name f) user action)
    as [[|]|e] eqn:Hacc; step; [| |done].
  - intros ->%IH. rewrite decide_True by done.
    by rewrite fmap_cons, <- app_assoc.
  - intros ->%IH. rewrite decide_False; [done|].
    intros (_ & _ & ?). congruence.
Qed.

(** What the loop raises was raised by the store, on a field it may ask
    about. *)
Lemma allowed_fields_loop_raises user fs acc e :
  PermByFieldMixin.allowed_fields_loop self (NameSet exclusion_set)
    user action fs acc = Raise e ->
  exists f : Field,
    f ∈ fs /\ eligible exclusion_set f
    /\ PermByFieldMixin.has_access_to_field self (name f) user action
       = Raise e.
Proof.
  revert acc. induction fs as [|f fs IH]; intros acc;
    cbn [PermByFieldMixin.allowed_fields_loop contains]; [done|].
  destruct (primary_key f) eqn:Hpk; step.
  { intros (g & ? & ?)%IH. exists g. split; [by right|done]. }
  case_bool_decide as Hin; step.
  { intros (g & ? & ?)%IH. exists g. split; [by right|done]. }
  destruct (PermByFieldMixin.has_access_to_field self (name f) user action)
    as [b|e'] eqn:Hacc; step.
  - intros (g & ? & ?)%IH. exists g. split; [by right|done].
  - intros [= <-]. exists f. split_and!; [by left|by split|done].
Qed.

(** Two stores that agree on the fields the loop may ask about give the same
    run of the loop. *)
Lemma allowed_fields_loop_agree user1 user2 fs acc :
  (forall f : Field, f ∈ fs -> eligible exclusion_set f ->
     PermByFieldMixin.has_access_to_field self (name f) user1 action
     = PermByFieldMixin.has_access_to_field self (name f) user2 action) ->
  PermByFieldMixin.allowed_fields_loop self (NameSet exclusion_set)
    user1 action fs acc
  = PermByFieldMixin.allowed_fields_loop self (NameSet exclusion_set)
      user2 action fs acc.
Proof.
  revert acc. induction fs as [|f fs IH]; intros acc Hagree; [done|].
  cbn [PermByFieldMixin.allowed_fields_loop contains].
  assert (forall acc',
    PermByFieldMixin.allowed_fields_loop self (NameSet exclusion_set)
      user1 action fs acc'
    = PermByFieldMixin.allowed_fields_loop self (NameSet exclusion_set)
        user2 action fs acc') as Hrest.
  { intros acc'. apply IH. intros g Hg. apply Hagree. by right. }
  destruct (primary_key f) eqn:Hpk; step; [apply Hrest|].
  case_bool_decide as Hin; step; [apply Hrest|].
  rewrite (Hagree f) by (by left || by split).
  destruct (PermByFieldMixin.has_access_to_field self (name f) user2 action)
    as [b|e]; step; [apply Hrest|done].
Qed.
End allowed_fields_any_store.

(** X9: with a set as blacklist, whenever [allowed_fields] returns, and
    whether or not the store would raise on other names, the list is the
    names, in declaration order, of the fields that are no primary key, are
    not blacklisted and to which [has_access_to_field] answers true; so
    [has_access_to_field] answers true on every name of the list. *)
Theorem allowed_fields_returns_exactly
    (self : ModelClass) (exclusion_set : gset string)
    (user : User) (action : string) (names : list string) :
  blacklist_is self exclusion_set ->
  PermByFieldMixin.allowed_fields self user action = Ok names ->
  names = name <$> filter (permitted self exclusion_set user action)
                     (fields (_meta self))
  /\ forall n : string, n ∈ names ->
       PermByFieldMixin.has_access_to_field self n user action = Ok true.
Proof.
  intros Hbl Hret. unfold PermByFieldMixin.allowed_fields in Hret.
  rewrite (blacklist_is_getattr _ _ Hbl) in Hret.
  cbn [mbind outcome_bind] in Hret.
  apply allowed_fields_loop_returns in Hret as ->. split; [done|].
  intros n (f & -> & Hf)%list_elem_of_fmap.
  by apply list_elem_of_filter in Hf as [(_ & _ & ?) _].
Qed.

Lemma allowed_fields_returns_exactly_witness :
  PermByFieldMixin.allowed_fields (document {["remarks"]}) editor "change"
  = Ok ["title"]
  /\ PermByFieldMixin.has_access_to_field (document {["remarks"]}) "title"
       editor "change" = Ok true.
Proof.
  split; [reflexivity|].
  destruct (allowed_fields_returns_exactly
              (document {["remarks"]}) {["remarks"]} editor "change"
              ["title"]) as [_ Htrue].
  - reflexivity.
  - reflexivity.
  - apply Htrue. apply (bool_decide_unpack _). by vm_compute.
Defined.

(** X10: with a set as blacklist, an exception raised by [allowed_fields] is
    one that [user.has_perm] raised, on the qualified key of a field that is
    neither primary key nor blacklisted. *)
Theorem allowed_fields_raises_what_store_raises
    (self : ModelClass) (exclusion_set : gset string)
    (user : User) (action : string) (e : exn) :
  blacklist_is self exclusion_set ->
  PermByFieldMixin.allowed_fields self user action = Raise e ->
  exists (f : Field) (key : string),
    f ∈ fields (_meta self)
    /\ primary_key f = false
    /\ (name f ∉ exclusion_set)
    /\ get_perm_key action (model_name (_meta self)) (name f) = Ok key
    /\ has_perm user (app_label (_meta self) +:+ "." +:+ key) = Raise e.
Proof.
  intros Hbl Hraise. unfold PermByFieldMixin.allowed_fields in Hraise.
  rewrite (blacklist_is_getattr _ _ Hbl) in Hraise.
  cbn [mbind outcome_bind] in Hraise.
  apply allowed_fields_loop_raises in Hraise as (f & Hf & [Hpk Hout] & He).
  exists f. eexists. split_and!; [done..|apply get_perm_key_eq|].
  by rewrite <- has_access_to_field_eq.
Qed.

Lemma allowed_fields_raises_what_store_raises_witness :
  let offline := {| has_perm := fun _ => Raise (PyExc "OperationalError") |} in
  exists (f : Field) (key : string),
    f ∈ [id_field; title_field; remarks_field]
    /\ primary_key f = false
    /\ (name f ∉ ({["remarks"]} : gset string))
    /\ get_perm_key "view" "document" (name f) = Ok key
    /\ has_perm offline ("app" +:+ "." +:+ key)
       = Raise (PyExc "OperationalError").
Proof.
  intros offline.
  exact (allowed_fields_raises_what_store_raises
           (document {["remarks"]}) {["remarks"]} offline "view"
           (PyExc "OperationalError") eq_refl eq_refl).
Defined.

(** X11: [allowed_fields] asks the store only about fields that are neither
    primary key nor blacklisted: with a set as blacklist, two stores that
    give the same answer, or raise the same exception, on the qualified keys
    of those fields give the same result, whatever they say on other
    names. *)
Theorem allowed_fields_asks_only_eligible
    (self : ModelClass) (exclusion_set : gset string)
    (user1 user2 : User) (action : string) :
  blacklist_is self exclusion_set ->
  (forall (f : Field) (key : string),
     f ∈ fields (_meta self) ->
     primary_key f = false ->
     name f ∉ exclusion_set ->
     get_perm_key action (model_name (_meta self)) (name f) = Ok key ->
     has_perm user1 (app_label (_meta self) +:+ "." +:+ key)
     = has_perm user2 (app_label (_meta self) +:+ "." +:+ key)) ->
  PermByFieldMixin.allowed_fields self user1 action
  = PermByFieldMixin.allowed_fields self user2 action.
Proof.
  intros Hbl Hagree. unfold PermByFieldMixin.allowed_fields.
  rewrite (blacklist_is_getattr _ _ Hbl). step.
  apply allowed_fields_loop_agree. intros f Hf [Hpk Hout].
  rewrite !has_access_to_field_eq.
  by apply (Hagree f); [..|apply get_perm_key_eq].
Qed.

Lemma allowed_fields_asks_only_eligible_witness :
  PermByFieldMixin.allowed_fields (document {["remarks"]}) editor "change"
  = PermByFieldMixin.allowed_fields (document {["remarks"]}) reviser "change".
Proof.
  apply (allowed_fields_asks_only_eligible
           (document {["remarks"]}) {["remarks"]} editor reviser "change").
  - reflexivity.
  - intros f key Hf Hpk Hout Hkey.
    change (f ∈ [id_field; title_field; remarks_field]) in Hf.
    rewrite !elem_of_cons, elem_of_nil in Hf.
    destruct Hf as [->|[->|[->|[]]]].
    + discriminate Hpk.
    + injection Hkey as <-. reflexivity.
    + destruct Hout. apply (bool_decide_unpack _). by vm_compute.
Defined.

Lemma filter_sublist_weaken {A} (P Q : A -> Prop)
    `{!forall x, Decision (P x)} `{!forall x, Decision (Q x)} (l : list A) :
  (forall x, x ∈ l -> P x -> Q x) -> filter P l `sublist_of` filter Q l.
Proof.
  induction l as [|x l IH]; intros Himp; [done|].
  assert (filter P l `sublist_of` filter Q l) as Hrest.
  { apply IH. intros y Hy. apply Himp. by right. }
  rewrite !filter_cons.
  destruct (decide (P x)) as [HP|HP].
  - rewrite decide_True by (apply Himp; [by left|done]).
    by apply sublist_skip.
  - destruct (decide (Q x)); [by apply sublist_cons|done].
Qed.

Lemma filter_agree_on {A} (P Q : A -> Prop)
    `{!forall x, Decision (P x)} `{!forall x, Decision (Q x)} (l : list A) :
  (forall x, x ∈ l -> P x <-> Q x) -> filter P l = filter Q l.
Proof.
  induction l as [|x l IH]; intros Hiff; [done|].
  rewrite !filter_cons, IH by (intros y Hy; apply Hiff; by right).
  destruct (decide (P x)) as [HP|HP].
  - by rewrite decide_True by (by apply Hiff; [left|]).
  - rewrite decide_False; [done|]. intros HQ. by apply HP, Hiff; [left|].
Qed.

(** X12: granting more never takes a field away.  With a set as blacklist
    and two stores that answer, if the second says true wherever the first
    does, then the list [allowed_fields] returns for the first is a sublist
    of the one it returns for the second. *)
Theorem allowed_fields_grows_with_grants
    (self : ModelClass) (exclusion_set : gset string)
    (user1 user2 : User) (action : string) :
  blacklist_is self exclusion_set ->
  never_raises user1 ->
  never_raises user2 ->
  (forall qualified : string,
     has_perm user1 qualified = Ok true ->
     has_perm user2 qualified = Ok true) ->
  exists names1 names2 : list string,
    PermByFieldMixin.allowed_fields self user1 action = Ok names1
    /\ PermByFieldMixin.allowed_fields self user2 action = Ok names2
    /\ names1 `sublist_of` names2.
Proof.
  intros Hbl Hstore1 Hstore2 Hmore. eexists _, _. split_and!.
  - by apply allowed_fields_eq.
  - by apply allowed_fields_eq.
  - apply fmap_sublist, filter_sublist_weaken.
    intros f _ (Hpk & Hout & Hacc). split_and!; [done..|].
    rewrite has_access_to_field_eq in Hacc |- *. by apply Hmore.
Qed.

Lemma allowed_fields_grows_with_grants_witness :
  exists names1 names2 : list string,
    PermByFieldMixin.allowed_fields (document ∅) editor "change" = Ok names1
    /\ PermByFieldMixin.allowed_fields (document ∅) reviser "change"
       = Ok names2
    /\ names1 `sublist_of` names2.
Proof.
  apply (allowed_fields_grows_with_grants (document ∅) ∅ editor reviser).
  - reflexivity.
  - intros qualified. eexists. reflexivity.
  - intros qualified. eexists. reflexivity.
  - intros qualified. cbn [editor reviser user_with_grants has_perm].
    intros [= Hin%bool_decide_eq_true]. f_equal.
    apply bool_decide_eq_true. apply elem_of_singleton in Hin as ->.
    apply (bool_decide_unpack _). by vm_compute.
Defined.

(** X13: a single grant opens a single field.  For the actor whose only
    grant is the qualified key of one field name under one action,
    [has_access_to_field] under that action answers true on that name and
    false on every other name. *)
Theorem single_grant_opens_one_field
    (self : ModelClass) (granted field_name action key : string) :
  get_perm_key action (model_name (_meta self)) granted = Ok key ->
  PermByFieldMixin.has_access_to_field self field_name
    (user_with_grants {[ app_label (_meta self) +:+ "." +:+ key ]}) action
  = Ok (bool_decide (field_name = granted)).
Proof.
  rewrite get_perm_key_eq. intros [= <-].
  rewrite has_access_to_field_eq. cbn [user_with_grants has_perm].
  f_equal. apply bool_decide_ext. rewrite elem_of_singleton. split.
  - intros H. apply (inj (String.app (app_label (_meta self)))) in H.
    change ("." +:+ ?x) with (String "."%char x) in H. injection H as H.
    by apply perm_code_inj in H.
  - by intros ->.
Qed.

Lemma single_grant_opens_one_field_witness :
  PermByFieldMixin.has_access_to_field (document ∅) "remarks"
    (user_with_grants {[ "app" +:+ "." +:+ "change_document_title_field" ]})
    "change"
  = Ok false.
Proof.
  exact (single_grant_opens_one_field (document ∅) "title" "remarks"
           "change" "change_document_title_field" eq_refl).
Defined.

(** X14: registration and query fit together.  With a set as blacklist, an
    actor granted every permission of the registered class, qualified by the
    application label, is allowed for [change] and for [view] exactly the
    fields that are neither primary key nor blacklisted, in declaration
    order. *)
Theorem allowed_fields_of_full_grants
    (new_class : ModelClass) (exclusion_set : gset string) (action : string) :
  blacklist_is new_class exclusion_set ->
  action ∈ ["change"; "view"] ->
  exists new_class' : ModelClass,
    PermissionByFieldBase.__new__ new_class = Ok new_class'
    /\ PermByFieldMixin.allowed_fields new_class'
         (user_with_grants (grants_of new_class')) action
       = Ok (name <$> filter (eligible exclusion_set)
                        (fields (_meta new_class))).
Proof.
  intros Hbl Haction. eexists. split.
  { by apply loop_configured, blacklist_is_getattr. }
  set (registered := with_permissions new_class _).
  rewrite (allowed_fields_eq registered exclusion_set)
    by (done || apply user_with_grants_never_raises).
  change (fields (_meta registered)) with (fields (_meta new_class)).
  apply (f_equal Ok), (f_equal (fmap name)).
  apply filter_agree_on. intros f Hf. split.
  { by intros (? & ? & _). }
  intros [Hpk Hout]. split_and!; [done..|].
  rewrite has_access_to_field_eq. cbn [user_with_grants has_perm].
  f_equal. apply bool_decide_eq_true.
  apply elem_of_list_to_set, list_elem_of_fmap.
  set (key := perm_code action _ _).
  assert (exists text : string,
            (key, text) ∈ field_entries (model_name (_meta new_class)) f)
    as [text Htext].
  { rewrite !elem_of_cons, elem_of_nil in Haction.
    destruct Haction as [->|[->|[]]]; eexists.
    - by left.
    - right. by left. }
  exists (key, text). split; [done|].
  cbn [registered with_permissions _meta permissions].
  apply elem_of_app. right.
  by apply (register_field_permissions_complete _ _ _ f).
Qed.

Lemma allowed_fields_of_full_grants_witness :
  exists new_class' : ModelClass,
    PermissionByFieldBase.__new__ (document {["remarks"]}) = Ok new_class'
    /\ PermByFieldMixin.allowed_fields new_class'
         (user_with_grants (grants_of new_class')) "view"
       = Ok ["title"].
Proof.
  destruct (allowed_fields_of_full_grants
              (document {["remarks"]}) {["remarks"]} "view")
    as (registered & Hnew & Hallowed).
  - reflexivity.
  - apply (bool_decide_unpack _). by vm_compute.
  - exists registered. split; [exact Hnew|exact Hallowed].
Defined.

Lemma allowed_fields_loop_ignores_permissions self ps blacklist user action
    fs acc :
  PermByFieldMixin.allowed_fields_loop (with_permissions self ps) blacklist
    user action fs acc
  = PermByFieldMixin.allowed_fields_loop self blacklist user action fs acc.
Proof.
  revert acc. induction fs as [|f fs IH]; intros acc; [done|].
  cbn [PermByFieldMixin.allowed_fields_loop].
  change (PermByFieldMixin.has_access_to_field (with_permissions self ps))
    with (PermByFieldMixin.has_access_to_field self).
  destruct (primary_key f); step; [apply IH|].
  destruct (contains blacklist (name f)) as [[|]|e]; step;
    [apply IH| |done].
  destruct (PermByFieldMixin.has_access_to_field self (name f) user action);
    step; [apply IH|done].
Qed.

(** X15: the queries never read the permission list.  When registration
    returns, [has_access_to_field] and [allowed_fields] give on the
    registered class the results, exceptions included, that they give on the
    class as it was before, for every store, field name and action. *)
Theorem queries_ignore_registration
    (new_class new_class' : ModelClass) (user : User)
    (field_name action : string) :
  PermissionByFieldBase.__new__ new_class = Ok new_class' ->
  PermByFieldMixin.has_access_to_field new_class' field_name user action
  = PermByFieldMixin.has_access_to_field new_class field_name user action
  /\ PermByFieldMixin.allowed_fields new_class' user action
     = PermByFieldMixin.allowed_fields new_class user action.
Proof.
  intros [added ->]%loop_frame. split; [done|].
  unfold PermByFieldMixin.allowed_fields.
  change (getattr_blacklist (with_permissions new_class _))
    with (getattr_blacklist new_class).
  destruct (getattr_blacklist new_class) as [b|e]; step; [|done].
  apply allowed_fields_loop_ignores_permissions.
Qed.

Lemma queries_ignore_registration_witness :
  PermByFieldMixin.allowed_fields
    (with_permissions (document {["remarks"]})
       [ ("change_document_title_field", "Can change Title field");
         ("view_document_title_field", "Can view Title field") ])
    editor "change"
  = PermByFieldMixin.allowed_fields (document {["remarks"]}) editor "change".
Proof.
  exact (proj2 (queries_ignore_registration (document {["remarks"]}) _
                  editor "title" "change" eq_refl)).
Defined.
